(** * fastAPI_coffee: the coffee catalogue service of [main.py]

    A shallow embedding of the five CRUD handlers of [main.py] together
    with the two collaborators they drive: the [Coffee] table of the ORM
    and the upload directory on disk.  Handlers are written in a small
    state-and-exception monad over a [World] holding the table, the
    row-id sequence, the files and a log of the mutations performed, so
    that the order of side effects can be stated. *)

From Stdlib Require Import ZArith String Ascii List Sorted PrimFloat.
From stdpp Require Import gmap strings list fin_maps.

Local Open Scope Z_scope.

(** ** Data model *)

Definition bytes : Type := list Byte.byte.

(** The columns declared by [class Coffee(SQLiteModel)], in order. *)
Record CoffeeCols : Type := MkCols {
  coffeeName : string;
  coffeeType : string;
  rate : float;
  commentCount : Z;
  image : string;
  price : float;
  isLiked : bool;
  desc : string;
  buyCount : Z;
  coffeeShopLocation : string;
  coffeeAddress : string
}.

(** A [Coffee] instance in memory: the primary key (absent until the
    instance has been saved) and the declared columns. *)
Record Coffee : Type := MkCoffee {
  id : option Z;
  cols : CoffeeCols
}.

(** Attribute read [coffee.image]. *)
Definition image_of (c : Coffee) : string := image (cols c).

(** Attribute assignment [coffee.<field> = v]. *)
Definition set_coffeeName (v : string) (c : Coffee) : Coffee :=
  let 'MkCols _ b c0 d e f g h i j k := cols c in
  MkCoffee (id c) (MkCols v b c0 d e f g h i j k).
Definition set_coffeeType (v : string) (c : Coffee) : Coffee :=
  let 'MkCols a _ c0 d e f g h i j k := cols c in
  MkCoffee (id c) (MkCols a v c0 d e f g h i j k).
Definition set_rate (v : float) (c : Coffee) : Coffee :=
  let 'MkCols a b _ d e f g h i j k := cols c in
  MkCoffee (id c) (MkCols a b v d e f g h i j k).
Definition set_commentCount (v : Z) (c : Coffee) : Coffee :=
  let 'MkCols a b c0 _ e f g h i j k := cols c in
  MkCoffee (id c) (MkCols a b c0 v e f g h i j k).
Definition set_image (v : string) (c : Coffee) : Coffee :=
  let 'MkCols a b c0 d _ f g h i j k := cols c in
  MkCoffee (id c) (MkCols a b c0 d v f g h i j k).
Definition set_price (v : float) (c : Coffee) : Coffee :=
  let 'MkCols a b c0 d e _ g h i j k := cols c in
  MkCoffee (id c) (MkCols a b c0 d e v g h i j k).
Definition set_isLiked (v : bool) (c : Coffee) : Coffee :=
  let 'MkCols a b c0 d e f _ h i j k := cols c in
  MkCoffee (id c) (MkCols a b c0 d e f v h i j k).
Definition set_desc (v : string) (c : Coffee) : Coffee :=
  let 'MkCols a b c0 d e f g _ i j k := cols c in
  MkCoffee (id c) (MkCols a b c0 d e f g v i j k).
Definition set_buyCount (v : Z) (c : Coffee) : Coffee :=
  let 'MkCols a b c0 d e f g h _ j k := cols c in
  MkCoffee (id c) (MkCols a b c0 d e f g h v j k).
Definition set_coffeeShopLocation (v : string) (c : Coffee) : Coffee :=
  let 'MkCols a b c0 d e f g h i _ k := cols c in
  MkCoffee (id c) (MkCols a b c0 d e f g h i v k).
Definition set_coffeeAddress (v : string) (c : Coffee) : Coffee :=
  let 'MkCols a b c0 d e f g h i j _ := cols c in
  MkCoffee (id c) (MkCols a b c0 d e f g h i j v).

(** [class CoffeeResponse(CoffeeBase)]: the base fields plus a mandatory
    integer [id] and the [image] string. *)
Record CoffeeResponse : Type := MkResponse {
  resp_id : Z;
  resp_cols : CoffeeCols
}.

(** [UploadFile]: the client's original file name and the content that
    [image.file.read()] yields. *)
Record UploadFile : Type := MkUpload {
  filename : string;
  file : bytes
}.

(** ** [os.path] on POSIX *)

Definition sep : ascii := "/"%char.

Definition startswith_sep (s : string) : bool :=
  match s with
  | String c _ => Ascii.eqb c sep
  | EmptyString => false
  end.

Fixpoint endswith_sep (s : string) : bool :=
  match s with
  | EmptyString => false
  | String c EmptyString => Ascii.eqb c sep
  | String _ r => endswith_sep r
  end.

(** [posixpath.join(a, b)]: an absolute [b] discards [a]; otherwise one
    separator is put between the two unless [a] is empty or already ends
    with one. *)
Definition os_path_join (a b : string) : string :=
  if startswith_sep b then b
  else if String.eqb a "" || endswith_sep a then a +:+ b
  else a +:+ String sep b.

(** [p.rfind('/')]: index of the last separator, [-1] when there is none. *)
Fixpoint rfind_sep (p : string) : Z :=
  match p with
  | EmptyString => -1
  | String c r =>
      let j := rfind_sep r in
      if 0 <=? j then j + 1
      else if Ascii.eqb c sep then 0 else -1
  end.

(** [posixpath.basename(p)]: [p[p.rfind('/') + 1:]]. *)
Definition os_path_basename (p : string) : string :=
  let i := Z.to_nat (rfind_sep p + 1) in
  String.substring i (String.length p - i)%nat p.

Definition UPLOAD_DIR : string := "uploads".

(** [f"/uploads/{os.path.basename(path)}"]. *)
Definition public_url (path : string) : string :=
  "/uploads/" +:+ os_path_basename path.

(** ** The world the handlers act on *)

(** Mutations of persistent state, in the order they are performed. *)
Inductive Effect : Type :=
| FsWrite (path : string) (content : bytes)
| FsRemove (path : string)
| DbInsert (k : Z) (row : CoffeeCols)
| DbUpdate (k : Z) (row : CoffeeCols)
| DbDelete (k : Z).

Record World : Type := MkWorld {
  table : gmap Z CoffeeCols;      (* rows of the coffee table, by primary key *)
  seq : Z;                        (* largest primary key handed out so far *)
  files : gmap string bytes;      (* content of the files, by path *)
  log : list Effect               (* mutations performed, oldest first *)
}.

Definition empty_world : World := MkWorld ∅ 0 ∅ [].

Inductive Exception : Type :=
| HTTPException (status_code : Z) (detail : string)
| FileNotFoundError (path : string)
| ValidationError.

Inductive Outcome (A : Type) : Type :=
| Returned (a : A)
| Raised (e : Exception).
Arguments Returned {A} a.
Arguments Raised {A} e.

(** A computation reads and writes the world and either returns a value
    or raises; what was written before a raise stays written. *)
Definition Handler (A : Type) : Type := World → Outcome A * World.

#[global] Instance handler_ret : MRet Handler :=
  λ A (a : A) w, (Returned a, w).

Definition raise {A} (e : Exception) : Handler A := λ w, (Raised e, w).

#[global] Instance handler_bind : MBind Handler :=
  λ A B (f : A → Handler B) (m : Handler A) w,
    match m w with
    | (Returned a, w') => f a w'
    | (Raised e, w') => (Raised e, w')
    end.

Definition ret {A} (a : A) : Handler A := mret a.

Definition emit (e : Effect) (w : World) : World :=
  MkWorld (table w) (seq w) (files w) (log w ++ [e]).

(** *** Storage adapter *)

(** Modelled from the spec: the ORM base class [SQLiteModel] is an
    external collaborator; [getById(id)] "returns the record or an absent
    signal; never throws". *)
Definition Coffee_get (k : Z) : Handler (option Coffee) :=
  fun w => (Returned (MkCoffee (Some k) <$> table w !! k), w).

(** Modelled from the spec: [save()] on an instance without primary key
    is [create(fields)], which "inserts a new row, assigns identifier,
    returns the full record including identifier", the identifier being
    the next one of a sequence that only grows; on an instance with a
    primary key it "persists the current in-memory record state for that
    id" and changes nothing when no such row exists. *)
Definition Coffee_save (c : Coffee) : Handler Coffee :=
  fun w =>
    match id c with
    | None =>
        let k := seq w + 1 in
        (Returned (MkCoffee (Some k) (cols c)),
         emit (DbInsert k (cols c))
           (MkWorld (<[k := cols c]> (table w)) k (files w) (log w)))
    | Some k =>
        match table w !! k with
        | Some _ =>
            (Returned c,
             emit (DbUpdate k (cols c))
               (MkWorld (<[k := cols c]> (table w)) (seq w) (files w) (log w)))
        | None => (Returned c, w)
        end
    end.

(** Modelled from the spec: [listAll()] "returns all records"; the
    order is that of [map_to_list]. *)
Definition Coffee_all : Handler (list Coffee) :=
  fun w =>
    (Returned ((fun kr => MkCoffee (Some kr.1) kr.2) <$> map_to_list (table w)), w).

(** Modelled from the spec: [deleteById(id)] "removes the row". *)
Definition Coffee_delete (k : Z) : Handler unit :=
  fun w =>
    (Returned tt,
     emit (DbDelete k) (MkWorld (delete k (table w)) (seq w) (files w) (log w))).

(** [QuerySet.to_dict()]: one dictionary per record, fields as stored. *)
Definition to_dict (coffees : list Coffee) : list Coffee := coffees.

(** *** Image store *)

(** [with open(path, "wb") as f: f.write(content)]: creates the file or
    replaces its content.  Files are kept by path in one flat map, and
    the write is taken to succeed: a failing disk is outside the model. *)
Definition write_file (path : string) (content : bytes) : Handler unit :=
  fun w =>
    (Returned tt,
     emit (FsWrite path content)
       (MkWorld (table w) (seq w) (<[path := content]> (files w)) (log w))).

Definition os_path_exists (path : string) : Handler bool :=
  fun w => (Returned (bool_decide (is_Some (files w !! path))), w).

Definition os_remove (path : string) : Handler unit :=
  fun w =>
    match files w !! path with
    | Some _ =>
        (Returned tt,
         emit (FsRemove path)
           (MkWorld (table w) (seq w) (delete path (files w)) (log w)))
    | None => (Raised (FileNotFoundError path), w)
    end.

(** ** The handlers of [main.py] *)

Definition not_found : Exception := HTTPException 404 "Coffee not found".

Definition create_coffee
    (coffeeName coffeeType : string) (rate : float) (commentCount : Z)
    (price : float) (isLiked : bool) (desc : string) (buyCount : Z)
    (coffeeShopLocation coffeeAddress : string) (image : UploadFile)
  : Handler Coffee :=
  let image_path := os_path_join UPLOAD_DIR (filename image) in
  write_file image_path (file image) ;;
  let coffee_data :=
    MkCols coffeeName coffeeType rate commentCount image_path price isLiked
           desc buyCount coffeeShopLocation coffeeAddress in
  let coffee_obj := MkCoffee None coffee_data in
  coffee_obj ← Coffee_save coffee_obj;
  ret coffee_obj.

Definition list_coffees : Handler (list Coffee) :=
  coffees ← Coffee_all;
  ret (to_dict coffees).

Definition get_coffee (coffee_id : Z) : Handler Coffee :=
  coffee ← Coffee_get coffee_id;
  match coffee with
  | None => raise not_found
  | Some coffee =>
      let coffee_dict := set_image (public_url (image_of coffee)) coffee in
      ret coffee_dict
  end.

(** [if v is not None: coffee.<field> = v]. *)
Definition assign_if {V} (v : option V) (set : V → Coffee → Coffee)
    (coffee : Coffee) : Coffee :=
  match v with
  | Some x => set x coffee
  | None => coffee
  end.

(** Building the [CoffeeResponse] from the unpacked [coffee_dict]:
    validation needs an integer [id]. *)
Definition make_response (coffee_dict : Coffee) : Handler CoffeeResponse :=
  match id coffee_dict with
  | Some k => ret (MkResponse k (cols coffee_dict))
  | None => raise ValidationError
  end.

Definition update_coffee
    (coffee_id : Z)
    (coffeeName coffeeType : option string) (rate : option float)
    (commentCount : option Z) (price : option float) (isLiked : option bool)
    (desc : option string) (buyCount : option Z)
    (coffeeShopLocation coffeeAddress : option string)
    (image : option UploadFile)
  : Handler CoffeeResponse :=
  coffee ← Coffee_get coffee_id;
  match coffee with
  | None => raise not_found
  | Some coffee =>
      let coffee := assign_if coffeeName set_coffeeName coffee in
      let coffee := assign_if coffeeType set_coffeeType coffee in
      let coffee := assign_if rate set_rate coffee in
      let coffee := assign_if commentCount set_commentCount coffee in
      let coffee := assign_if price set_price coffee in
      let coffee := assign_if isLiked set_isLiked coffee in
      let coffee := assign_if desc set_desc coffee in
      let coffee := assign_if buyCount set_buyCount coffee in
      let coffee := assign_if coffeeShopLocation set_coffeeShopLocation coffee in
      let coffee := assign_if coffeeAddress set_coffeeAddress coffee in
      coffee ←
        match image with
        | Some image =>
            let image_path := os_path_join UPLOAD_DIR (filename image) in
            write_file image_path (file image) ;;
            ret (set_image image_path coffee)
        | None => ret coffee
        end;
      coffee ← Coffee_save coffee;
      let coffee_dict :=
        set_image (public_url (image_of coffee)) coffee in
      make_response coffee_dict
  end.

Definition deleted : list (string * string) :=
  [("detail", "Coffee deleted successfully")]%string.

Definition delete_coffee (coffee_id : Z) : Handler (list (string * string)) :=
  coffee ← Coffee_get coffee_id;
  match coffee with
  | None => raise not_found
  | Some coffee =>
      present ← os_path_exists (image_of coffee);
      (if (present : bool) then os_remove (image_of coffee) else ret tt) ;;
      Coffee_delete coffee_id ;;
      ret deleted
  end.

(** ** The HTTP surface: one request after the other *)

Inductive Request : Type :=
| POST_coffees
    (coffeeName coffeeType : string) (rate : float) (commentCount : Z)
    (price : float) (isLiked : bool) (desc : string) (buyCount : Z)
    (coffeeShopLocation coffeeAddress : string) (image : UploadFile)
| GET_coffees
| GET_coffee (coffee_id : Z)
| PUT_coffee
    (coffee_id : Z)
    (coffeeName coffeeType : option string) (rate : option float)
    (commentCount : option Z) (price : option float) (isLiked : option bool)
    (desc : option string) (buyCount : option Z)
    (coffeeShopLocation coffeeAddress : option string)
    (image : option UploadFile)
| DELETE_coffee (coffee_id : Z).

Inductive Response : Type :=
| Created (coffee : Coffee)
| Listed (coffees : list Coffee)
| Fetched (coffee_dict : Coffee)
| Updated (response : CoffeeResponse)
| Deleted (payload : list (string * string))
| Failed (e : Exception).

Definition respond {A} (wrap : A → Response) (h : Handler A)
  : World → Response * World :=
  λ w, match h w with
       | (Returned a, w') => (wrap a, w')
       | (Raised e, w') => (Failed e, w')
       end.

(** The routes registered on [app]. *)
Definition dispatch (r : Request) : World → Response * World :=
  match r with
  | POST_coffees a b c d e f g h i j up =>
      respond Created (create_coffee a b c d e f g h i j up)
  | GET_coffees => respond Listed list_coffees
  | GET_coffee k => respond Fetched (get_coffee k)
  | PUT_coffee k a b c d e f g h i j up =>
      respond Updated (update_coffee k a b c d e f g h i j up)
  | DELETE_coffee k => respond Deleted (delete_coffee k)
  end.

Fixpoint serve (rs : list Request) (w : World) : list Response * World :=
  match rs with
  | [] => ([], w)
  | r :: rs' =>
      let '(a, w1) := dispatch r w in
      let '(rest, w2) := serve rs' w1 in
      (a :: rest, w2)
  end.





(** A path is of the public form when it reads [/uploads/<name>] with no
    separator in [<name>]. *)
Definition is_public_form (path : string) : Prop :=
  ∃ name, path = "/uploads/" +:+ name ∧ rfind_sep name = -1.

(** ** Auxiliary definitions for the statements *)

(** The ten conditional assignments of [update_coffee], in source order. *)
Definition apply_fields
    (nm ty : option string) (rt : option float) (cc : option Z)
    (pr : option float) (lk : option bool) (ds : option string)
    (bc : option Z) (loc addr : option string) (c : Coffee) : Coffee :=
  assign_if addr set_coffeeAddress
    (assign_if loc set_coffeeShopLocation
      (assign_if bc set_buyCount
        (assign_if ds set_desc
          (assign_if lk set_isLiked
            (assign_if pr set_price
              (assign_if cc set_commentCount
                (assign_if rt set_rate
                  (assign_if ty set_coffeeType
                    (assign_if nm set_coffeeName c))))))))).

(** The world once the optional replacement file has been written. *)
Definition after_upload (up : option UploadFile) (w : World) : World :=
  match up with
  | Some u =>
      let path := os_path_join UPLOAD_DIR (filename u) in
      MkWorld (table w) (seq w) (<[path := file u]> (files w))
              (log w ++ [FsWrite path (file u)])
  | None => w
  end.

(** The instance once the optional replacement path has been assigned. *)
Definition with_upload (up : option UploadFile) (c : Coffee) : Coffee :=
  match up with
  | Some u => set_image (os_path_join UPLOAD_DIR (filename u)) c
  | None => c
  end.

(** ** Concrete requests and worlds *)

Definition latte_png : UploadFile := MkUpload "latte.png" [Byte.x89; Byte.x50].

Definition latte_row : CoffeeCols :=
  MkCols "Latte" "espresso" 4.5 12 "uploads/latte.png" 4.5 false "" 0
         "Tehran" "Valiasr".

Definition post_latte : Request :=
  POST_coffees "Latte" "espresso" 4.5 12 4.5 false "" 0 "Tehran" "Valiasr"
               latte_png.

Definition latte_world : World := (dispatch post_latte empty_world).2.

(** An upload whose client-chosen name is absolute. *)
Definition crafted_png : UploadFile := MkUpload "/uploads/x.png" [Byte.x89].

Definition crafted_world : World :=
  (create_coffee "Latte" "espresso" 4.5 12 4.5 false "" 0 "Tehran" "Valiasr"
     crafted_png empty_world).2.

(** Two records created from uploads of the same name. *)
Definition twin_world : World :=
  (serve [post_latte; post_latte] empty_world).2.

Definition mocha_png : UploadFile := MkUpload "mocha.png" [Byte.x47; Byte.x49].

Definition is_delete (r : Request) : bool :=
  match r with
  | DELETE_coffee _ => true
  | _ => false
  end.

(** The object a record is read back as: key and stored columns. *)
Definition as_object (kr : Z * CoffeeCols) : Coffee :=
  MkCoffee (Some kr.1) kr.2.

(** * Properties *)

(** ** Running handlers *)

Ltac run :=
  unfold create_coffee, list_coffees, get_coffee, update_coffee,
    delete_coffee, make_response, ret, raise, Coffee_get, Coffee_save,
    Coffee_all, Coffee_delete, write_file, os_path_exists, os_remove,
    to_dict, emit;
  unfold mbind, handler_bind, mret, handler_ret; cbn.

Lemma Coffee_get_found k row w :
  table w !! k = Some row →
  Coffee_get k w = (Returned (Some (MkCoffee (Some k) row)), w).
Proof. intros E. unfold Coffee_get. by rewrite E. Qed.

Lemma apply_fields_eq nm ty rt cc pr lk ds bc loc addr i row :
  apply_fields nm ty rt cc pr lk ds bc loc addr (MkCoffee i row)
  = MkCoffee i
      (MkCols (default (coffeeName row) nm) (default (coffeeType row) ty)
         (default (rate row) rt) (default (commentCount row) cc)
         (image row) (default (price row) pr) (default (isLiked row) lk)
         (default (desc row) ds) (default (buyCount row) bc)
         (default (coffeeShopLocation row) loc)
         (default (coffeeAddress row) addr)).
Proof.
  destruct row.
  destruct nm, ty, rt, cc, pr, lk, ds, bc, loc, addr; reflexivity.
Qed.

(** ** Creation *)


(** For a file name that does not begin with a separator, the join is
    literally [uploads/<filename>]. *)
Lemma os_path_join_relative (name : string) :
  startswith_sep name = false →
  os_path_join UPLOAD_DIR name = "uploads/" +:+ name.
Proof. intros H. unfold os_path_join. by rewrite H. Qed.


(** ** What each handler computes *)

Lemma get_coffee_found k row w :
  table w !! k = Some row →
  get_coffee k w
  = (Returned (set_image (public_url (image row)) (MkCoffee (Some k) row)), w).
Proof. intros E. run. by rewrite E. Qed.

Lemma get_coffee_absent k w :
  table w !! k = None → get_coffee k w = (Raised not_found, w).
Proof. intros E. run. by rewrite E. Qed.

Lemma with_upload_id up c : id (with_upload up c) = id c.
Proof. destruct up; [|done]. by destruct c as [i []]. Qed.

Lemma update_coffee_found k nm ty rt cc pr lk ds bc loc addr up row w :
  table w !! k = Some row →
  let c :=
    with_upload up
      (apply_fields nm ty rt cc pr lk ds bc loc addr (MkCoffee (Some k) row)) in
  let w1 := after_upload up w in
  update_coffee k nm ty rt cc pr lk ds bc loc addr up w
  = (Returned (MkResponse k (cols (set_image (public_url (image_of c)) c))),
     MkWorld (<[k := cols c]> (table w1)) (seq w1) (files w1)
             (log w1 ++ [DbUpdate k (cols c)])).
Proof.
  intros E c w1. subst c w1.
  unfold update_coffee, mbind, handler_bind.
  rewrite (Coffee_get_found _ _ _ E).
  fold (apply_fields nm ty rt cc pr lk ds bc loc addr (MkCoffee (Some k) row)).
  rewrite apply_fields_eq.
  destruct up as [u|]; run; by rewrite E.
Qed.

Lemma update_coffee_absent k nm ty rt cc pr lk ds bc loc addr up w :
  table w !! k = None →
  update_coffee k nm ty rt cc pr lk ds bc loc addr up w = (Raised not_found, w).
Proof. intros E. run. by rewrite E. Qed.

Lemma delete_coffee_found k row w :
  table w !! k = Some row →
  delete_coffee k w
  = (Returned deleted,
     MkWorld (delete k (table w)) (seq w) (delete (image row) (files w))
       (log w
        ++ (if bool_decide (is_Some (files w !! image row))
            then [FsRemove (image row)] else [])
        ++ [DbDelete k])).
Proof.
  intros E. run. rewrite E. cbn. unfold image_of. cbn.
  destruct (files w !! image row) as [content|] eqn:F.
  - rewrite bool_decide_eq_true_2 by eauto. cbn. rewrite F. cbn.
    by rewrite <- app_assoc.
  - rewrite bool_decide_eq_false_2 by (intros [? ?]; done). cbn.
    by rewrite (delete_id _ _ F).
Qed.

Lemma delete_coffee_absent k w :
  table w !! k = None → delete_coffee k w = (Raised not_found, w).
Proof. intros E. run. by rewrite E. Qed.

(** ** Absent identifiers *)

(** C2. Each of get, update and delete by id fails with HTTP 404 and
    detail "Coffee not found" exactly when the table has no row with
    that identifier; in particular none of them does when the row is
    there. *)
Theorem not_found_iff_absent
    (k : Z) (nm ty : option string) (rt : option float) (cc : option Z)
    (pr : option float) (lk : option bool) (ds : option string)
    (bc : option Z) (loc addr : option string) (up : option UploadFile)
    (w : World) :
  ((get_coffee k w).1 = Raised (HTTPException 404 "Coffee not found")
     ↔ table w !! k = None)
  ∧ ((update_coffee k nm ty rt cc pr lk ds bc loc addr up w).1
       = Raised (HTTPException 404 "Coffee not found")
     ↔ table w !! k = None)
  ∧ ((delete_coffee k w).1 = Raised (HTTPException 404 "Coffee not found")
     ↔ table w !! k = None).
Proof.
  destruct (table w !! k) as [row|] eqn:E.
  - rewrite (get_coffee_found _ _ _ E), (delete_coffee_found _ _ _ E),
      (update_coffee_found _ nm ty rt cc pr lk ds bc loc addr up _ _ E).
    cbn. repeat split; done.
  - rewrite (get_coffee_absent _ _ E), (delete_coffee_absent _ _ E),
      (update_coffee_absent _ nm ty rt cc pr lk ds bc loc addr up _ E).
    cbn. repeat split; done.
Qed.

(** C8. Deleting an identifier that resolves to no row answers 404 and
    leaves the table, the sequence, the files and the log of mutations
    exactly as they were. *)
Theorem delete_coffee_absent_no_mutation (k : Z) (w : World) :
  table w !! k = None →
  delete_coffee k w = (Raised (HTTPException 404 "Coffee not found"), w).
Proof. apply delete_coffee_absent. Qed.

Lemma delete_coffee_absent_no_mutation_witness :
  table empty_world !! 7 = None
  ∧ delete_coffee 7 empty_world
    = (Raised (HTTPException 404 "Coffee not found"), empty_world).
Proof.
  split; [reflexivity|].
  apply (delete_coffee_absent_no_mutation 7 empty_world). reflexivity.
Defined.

(** C10. Get by id is read-only: whatever the world and the identifier,
    the world after the call is the world before it, row for row and
    file for file. *)
Theorem get_coffee_read_only (k : Z) (w : World) :
  (get_coffee k w).2 = w.
Proof.
  destruct (table w !! k) as [row|] eqn:E.
  - by rewrite (get_coffee_found _ _ _ E).
  - by rewrite (get_coffee_absent _ _ E).
Qed.

(** ** Deletion *)


(** ** Update *)

(** C6. An update that provides no field and no file leaves every row
    of the table, the updated one included, and every file as it was. *)
Theorem update_coffee_empty_is_identity (k : Z) (row : CoffeeCols) (w : World) :
  table w !! k = Some row →
  ∃ resp w',
    update_coffee k None None None None None None None None None None None w
      = (Returned resp, w')
    ∧ table w' = table w
    ∧ table w' !! k = Some row
    ∧ files w' = files w
    ∧ seq w' = seq w.
Proof.
  intros E. eexists _, _.
  split.
  { apply (update_coffee_found k None None None None None None None None
             None None None row w E). }
  cbn. destruct row. cbn.
  rewrite insert_id by done. done.
Qed.


(** ** Representation of [image] *)


(** *** [os.path.basename] *)

Lemma rfind_sep_lower (p : string) : -1 ≤ rfind_sep p.
Proof.
  induction p as [|c r IH]; cbn; [lia|].
  destruct (Z.leb_spec 0 (rfind_sep r)); [lia|].
  destruct (Ascii.eqb c sep); lia.
Qed.

Lemma substring_whole (s : string) : String.substring 0 (String.length s) s = s.
Proof. induction s as [|c r IH]; cbn; [done|]. by rewrite IH. Qed.

(** The recursion [os_path_basename] obeys, one character at a time. *)
Lemma os_path_basename_cons (c : ascii) (r : string) :
  os_path_basename (String c r)
  = if 0 <=? rfind_sep r then os_path_basename r
    else if Ascii.eqb c sep then r else String c r.
Proof.
  unfold os_path_basename. cbn [rfind_sep String.length].
  pose proof (rfind_sep_lower r) as Hlow.
  destruct (Z.leb_spec 0 (rfind_sep r)) as [Hpos|Hneg].
  - replace (Z.to_nat (rfind_sep r + 1 + 1)) with (S (Z.to_nat (rfind_sep r + 1)))
      by lia.
    reflexivity.
  - destruct (Ascii.eqb c sep).
    + change (Z.to_nat (0 + 1)) with 1%nat. cbn.
      rewrite Nat.sub_0_r. apply substring_whole.
    + change (Z.to_nat (-1 + 1)) with 0%nat. cbn.
      by rewrite substring_whole.
Qed.

Lemma os_path_basename_no_sep (p : string) :
  rfind_sep (os_path_basename p) = -1.
Proof.
  induction p as [|c r IH]; [done|].
  rewrite os_path_basename_cons.
  pose proof (rfind_sep_lower r) as Hlow.
  destruct (Z.leb_spec 0 (rfind_sep r)) as [Hpos|Hneg]; [done|].
  destruct (Ascii.eqb c sep) eqn:Hc; [lia|].
  cbn. rewrite Hc.
  destruct (Z.leb_spec 0 (rfind_sep r)); lia.
Qed.

Lemma rfind_sep_after (d name : string) :
  0 ≤ rfind_sep (d +:+ String sep name).
Proof.
  induction d as [|c r IH].
  - change (0 ≤ rfind_sep (String sep name)). cbn [rfind_sep].
    rewrite Ascii.eqb_refl.
    destruct (Z.leb_spec 0 (rfind_sep name)); lia.
  - change (0 ≤ rfind_sep (String c (r +:+ String sep name))).
    cbn [rfind_sep].
    destruct (Z.leb_spec 0 (rfind_sep (r +:+ String sep name))); lia.
Qed.

Lemma os_path_basename_after (d name : string) :
  rfind_sep name = -1 →
  os_path_basename (d +:+ String sep name) = name.
Proof.
  intros Hname. induction d as [|c r IH].
  - change (os_path_basename (String sep name) = name).
    rewrite os_path_basename_cons, Hname, Ascii.eqb_refl. done.
  - change (os_path_basename (String c (r +:+ String sep name)) = name).
    rewrite os_path_basename_cons.
    pose proof (rfind_sep_after r name).
    destruct (Z.leb_spec 0 (rfind_sep (r +:+ String sep name))); [done|lia].
Qed.

(** The public URL of a path is that very path exactly when the path is
    already of the public form. *)
Lemma public_url_fixed_iff (path : string) :
  public_url path = path ↔ is_public_form path.
Proof.
  unfold public_url, is_public_form. split.
  - intros Heq. exists (os_path_basename path).
    split; [done|apply os_path_basename_no_sep].
  - intros [name [-> Hname]]. f_equal.
    apply (os_path_basename_after "/uploads" name Hname).
Qed.


Lemma set_image_image v c : image (cols (set_image v c)) = v.
Proof. by destruct c as [i []]. Qed.


(** ** Identifiers *)







Lemma serve_cons r rs w :
  serve (r :: rs) w
  = ((dispatch r w).1 :: (serve rs (dispatch r w).2).1,
     (serve rs (dispatch r w).2).2).
Proof.
  cbn. destruct (dispatch r w) as [a w1]. cbn.
  by destruct (serve rs w1) as [rest w2].
Qed.






(** ** The scenarios of the specification, run on the model *)

Example post_latte_answer :
  (dispatch post_latte empty_world).1 = Created (MkCoffee (Some 1) latte_row).
Proof. reflexivity. Qed.

Example get_latte_answer :
  (dispatch (GET_coffee 1) latte_world).1
  = Fetched (set_image "/uploads/latte.png" (MkCoffee (Some 1) latte_row)).
Proof. reflexivity. Qed.

Example delete_then_get_latte :
  (serve [DELETE_coffee 1; GET_coffee 1] latte_world).1
  = [Deleted deleted; Failed not_found]
  ∧ files (serve [DELETE_coffee 1; GET_coffee 1] latte_world).2
      !! "uploads/latte.png" = None.
Proof. split; reflexivity. Qed.

Lemma latte_stored : table latte_world !! 1 = Some latte_row.
Proof. reflexivity. Qed.





Lemma update_coffee_empty_is_identity_witness :
  table latte_world !! 1 = Some latte_row
  ∧ (∃ resp w',
        update_coffee 1 None None None None None None None None None None None
          latte_world = (Returned resp, w')
        ∧ table w' = table latte_world
        ∧ files w' = files latte_world).
Proof.
  split; [reflexivity|].
  destruct (update_coffee_empty_is_identity 1 latte_row latte_world latte_stored)
    as (resp & w' & Hrun & Htable & _ & Hfiles & _).
  exists resp, w'. repeat split; assumption.
Defined.



(** * Further properties of the handlers *)



(** ** Paths *)





(** ** Create, then read back *)




(** ** Shared and orphaned files *)


(** X4. Deleting a record removes the file at its image path even when
    another record has the same [image]: that other record stays in the
    table and its image path no longer names a file. *)
Theorem delete_leaves_sharing_record_dangling
    (k j : Z) (row other : CoffeeCols) (w : World) :
  table w !! k = Some row →
  table w !! j = Some other →
  j ≠ k →
  image other = image row →
  ∃ w',
    delete_coffee k w = (Returned deleted, w')
    ∧ table w' !! j = Some other
    ∧ files w' !! image other = None.
Proof.
  intros Hk Hj Hne Himg. eexists.
  split; [apply (delete_coffee_found _ _ _ Hk)|]. cbn.
  split; [by rewrite lookup_delete_ne|].
  rewrite Himg. apply lookup_delete_eq.
Qed.

Lemma delete_leaves_sharing_record_dangling_witness :
  table twin_world !! 1 = Some latte_row
  ∧ table twin_world !! 2 = Some latte_row
  ∧ (∃ w',
        delete_coffee 1 twin_world = (Returned deleted, w')
        ∧ table w' !! 2 = Some latte_row
        ∧ files w' !! "uploads/latte.png" = None).
Proof.
  split; [reflexivity|]. split; [reflexivity|].
  apply (delete_leaves_sharing_record_dangling 1 2 latte_row latte_row
           twin_world); [reflexivity|reflexivity|lia|reflexivity].
Defined.



(** ** Update *)



(** X7. An update addressed to an identifier without a row answers 404
    before anything is done: no field is saved and a replacement file
    sent along is not written to disk. *)
Theorem update_coffee_absent_no_mutation
    (k : Z) (nm ty : option string) (rt : option float) (cc : option Z)
    (pr : option float) (lk : option bool) (ds : option string)
    (bc : option Z) (loc addr : option string) (up : option UploadFile)
    (w : World) :
  table w !! k = None →
  update_coffee k nm ty rt cc pr lk ds bc loc addr up w
  = (Raised (HTTPException 404 "Coffee not found"), w).
Proof. intros Hk. run. by rewrite Hk. Qed.

Lemma update_coffee_absent_no_mutation_witness :
  table latte_world !! 2 = None
  ∧ update_coffee 2 None None None None None None None None None None
      (Some mocha_png) latte_world
    = (Raised (HTTPException 404 "Coffee not found"), latte_world).
Proof.
  split; [reflexivity|].
  apply (update_coffee_absent_no_mutation 2 None None None None None None
           None None None None (Some mocha_png) latte_world).
  reflexivity.
Defined.




(** ** Listing *)

Lemma list_coffees_eq (w : World) :
  list_coffees w = (Returned (as_object <$> map_to_list (table w)), w).
Proof. reflexivity. Qed.

(** X9. List changes nothing and returns every stored record exactly
    once: the answer has as many entries as the table has rows and no
    identifier occurs twice in it. *)
Theorem list_coffees_each_once (w : World) :
  ∃ answer,
    list_coffees w = (Returned answer, w)
    ∧ length answer = size (table w)
    ∧ NoDup (id <$> answer).
Proof.
  eexists. split; [apply list_coffees_eq|].
  split.
  - by rewrite length_fmap, length_map_to_list.
  - rewrite <- list_fmap_compose.
    assert (Heq : id ∘ as_object = Some ∘ fst) by done.
    rewrite Heq, list_fmap_compose.
    apply (NoDup_fmap_2 Some), NoDup_fst_map_to_list.
Qed.



(** X11. The list taken right after a successful delete is, up to
    order, the list taken just before without the deleted record; every
    other record is still listed, unchanged. *)
Theorem delete_then_list (k : Z) (row : CoffeeCols) (w : World) :
  table w !! k = Some row →
  ∃ w' before after,
    list_coffees w = (Returned before, w)
    ∧ delete_coffee k w = (Returned deleted, w')
    ∧ list_coffees w' = (Returned after, w')
    ∧ MkCoffee (Some k) row :: after ≡ₚ before.
Proof.
  intros Hk. eexists _, _, _.
  split; [apply list_coffees_eq|].
  split; [apply (delete_coffee_found _ _ _ Hk)|].
  split; [apply list_coffees_eq|]. cbn.
  rewrite <- (map_to_list_delete (table w) k row Hk). done.
Qed.

Lemma delete_then_list_witness :
  table twin_world !! 1 = Some latte_row
  ∧ (∃ w' before after,
        list_coffees twin_world = (Returned before, twin_world)
        ∧ delete_coffee 1 twin_world = (Returned deleted, w')
        ∧ list_coffees w' = (Returned after, w')
        ∧ MkCoffee (Some 1) latte_row :: after ≡ₚ before).
Proof.
  split; [reflexivity|].
  apply (delete_then_list 1 latte_row twin_world). reflexivity.
Defined.

(** ** The image returned by get *)

(** X12. Whatever path is stored, the [image] a successful get returns
    reads "/uploads/<name>" with no separator inside <name>, and
    rewriting it once more would not change it. *)
Theorem get_coffee_image_public_form (k : Z) (row : CoffeeCols) (w : World) :
  table w !! k = Some row →
  ∃ c,
    get_coffee k w = (Returned c, w)
    ∧ is_public_form (image (cols c))
    ∧ public_url (image (cols c)) = image (cols c).
Proof.
  intros Hk. eexists. split; [apply (get_coffee_found _ _ _ Hk)|].
  rewrite set_image_image.
  assert (Hform : is_public_form (public_url (image row))).
  { exists (os_path_basename (image row)).
    split; [done|apply os_path_basename_no_sep]. }
  split; [done|]. by apply public_url_fixed_iff.
Qed.

Lemma get_coffee_image_public_form_witness :
  table crafted_world !! 1
  = Some (MkCols "Latte" "espresso" 4.5 12 "/uploads/x.png" 4.5 false "" 0
            "Tehran" "Valiasr")
  ∧ (∃ c,
        get_coffee 1 crafted_world = (Returned c, crafted_world)
        ∧ is_public_form (image (cols c))).
Proof.
  split; [reflexivity|].
  destruct (get_coffee_image_public_form 1
              (MkCols "Latte" "espresso" 4.5 12 "/uploads/x.png" 4.5 false ""
                 0 "Tehran" "Valiasr") crafted_world eq_refl)
    as (c & Hget & Hform & _).
  exists c. split; assumption.
Defined.

(** ** What touches the files *)

(** The files after one request: a delete that found its record removes
    that record's image path; any other request removes nothing and at
    most writes one path. *)
Lemma dispatch_files (r : Request) (w : World) :
  let w' := (dispatch r w).2 in
  ∃ es,
    log w' = log w ++ es
    ∧ ((files w' = files w
        ∨ ∃ path content, files w' = <[path := content]> (files w))
       ∧ (∀ p, FsRemove p ∉ es)
       ∨ ∃ k row,
           r = DELETE_coffee k ∧ table w !! k = Some row
           ∧ files w' = delete (image row) (files w)
           ∧ ∀ p, FsRemove p ∈ es → p = image row ∧ is_Some (files w !! p)).
Proof.
  destruct r as [a b c d e f g h i j up| |k|k a b c d e f g h i j up|k]; cbn.
  - exists [FsWrite (os_path_join UPLOAD_DIR (filename up)) (file up);
            DbInsert (seq w + 1)
              (MkCols a b c d (os_path_join UPLOAD_DIR (filename up)) e f g h
                 i j)].
    unfold respond. run.
    split; [by rewrite <- app_assoc|]. left. split; [eauto|].
    intros p Hp. apply elem_of_cons in Hp as [?|Hp]; [done|].
    by apply list_elem_of_singleton in Hp.
  - exists []. unfold respond. run. split; [by rewrite app_nil_r|]. left.
    split; [by left|]. intros p Hp. by apply elem_of_nil in Hp.
  - exists []. unfold respond. rewrite app_nil_r.
    destruct (table w !! k) as [row|] eqn:E.
    + rewrite (get_coffee_found _ _ _ E). split; [done|]. left.
      split; [by left|]. intros p Hp. by apply elem_of_nil in Hp.
    + rewrite (get_coffee_absent _ _ E). split; [done|]. left.
      split; [by left|]. intros p Hp. by apply elem_of_nil in Hp.
  - unfold respond. destruct (table w !! k) as [row|] eqn:E.
    + rewrite (update_coffee_found k a b c d e f g h i j up row w E).
      destruct up as [u|]; cbn.
      * eexists [_; _]. split; [by rewrite <- app_assoc|]. left.
        split; [eauto|].
        intros p Hp. apply elem_of_cons in Hp as [?|Hp]; [done|].
        by apply list_elem_of_singleton in Hp.
      * eexists [_]. split; [done|]. left. split; [by left|].
        intros p Hp. by apply list_elem_of_singleton in Hp.
    + rewrite (update_coffee_absent k a b c d e f g h i j up w E).
      exists []. split; [by rewrite app_nil_r|]. left.
      split; [by left|]. intros p Hp. by apply elem_of_nil in Hp.
  - unfold respond. destruct (table w !! k) as [row|] eqn:E.
    + rewrite (delete_coffee_found _ _ _ E). cbn.
      eexists. split; [done|]. right. exists k, row.
      split; [done|]. split; [done|]. split; [done|].
      intros p Hp.
      destruct (bool_decide (is_Some (files w !! image row))) eqn:B.
      * apply bool_decide_eq_true_1 in B.
        apply elem_of_cons in Hp as [[= ->]|Hp]; [done|].
        by apply list_elem_of_singleton in Hp.
      * by apply list_elem_of_singleton in Hp.
    + rewrite (delete_coffee_absent _ _ E).
      exists []. split; [by rewrite app_nil_r|]. left.
      split; [by left|]. intros p Hp. by apply elem_of_nil in Hp.
Qed.



(** X14. Over any run of requests that contains no delete, every path
    that names a file at the start still names a file at the end:
    uploads replaced by updates are never cleaned up. *)
Theorem files_persist_without_delete
    (rs : list Request) (p : string) (w : World) :
  Forall (λ r, is_delete r = false) rs →
  is_Some (files w !! p) →
  is_Some (files (serve rs w).2 !! p).
Proof.
  revert w. induction rs as [|r rs IH]; intros w Hrs Hp; [done|].
  apply Forall_cons in Hrs as [Hr Hrs].
  rewrite serve_cons. cbn [snd]. apply IH; [done|].
  destruct (dispatch_files r w)
    as (es & _ & [[[Hf|(path & content & Hf)] _]|(k & row & -> & _)]).
  - by rewrite Hf.
  - rewrite Hf. destruct (decide (path = p)) as [->|Hne].
    + rewrite lookup_insert_eq. eauto.
    + by rewrite lookup_insert_ne.
  - discriminate Hr.
Qed.

Lemma files_persist_without_delete_witness :
  Forall (λ r, is_delete r = false)
    [PUT_coffee 1 None None None None None None None None None None
       (Some mocha_png); GET_coffees; post_latte]
  ∧ is_Some (files latte_world !! "uploads/latte.png")
  ∧ is_Some
      (files
         (serve
            [PUT_coffee 1 None None None None None None None None None None
               (Some mocha_png); GET_coffees; post_latte] latte_world).2
       !! "uploads/latte.png").
Proof.
  assert (Hrs : Forall (λ r, is_delete r = false)
                  [PUT_coffee 1 None None None None None None None None None
                     None (Some mocha_png); GET_coffees; post_latte]).
  { repeat constructor. }
  assert (Hp : is_Some (files latte_world !! "uploads/latte.png")).
  { exists (file latte_png). reflexivity. }
  split; [exact Hrs|]. split; [exact Hp|].
  apply (files_persist_without_delete _ "uploads/latte.png" latte_world Hrs Hp).
Defined.
